(** * es-midway-admin: the user module, its generic CRUD base and the
      response envelope

    A shallow embedding of [src/service/base.ts], [src/service/user.ts],
    [src/controller/base.ts], [src/controller/user.ts] and
    [src/utils/result.ts], with the properties the specification states
    about them. *)

From Stdlib Require Import ZArith List String Ascii Bool Lia.
Import ListNotations.

Local Open Scope string_scope.
Local Open Scope Z_scope.

(** ** The [md5] package

    [import * as md5 from 'md5']: the digest of RFC 1321 over the bytes of
    the message, printed as 32 lower-case hexadecimal digits.  A [string]
    here is the byte string the package hashes (the UTF-8 encoding of the
    JavaScript string).  32-bit words are [Z] with the wrap-around written
    out. *)
Module MD5.

Definition w32 (x : Z) : Z := x mod 2 ^ 32.

Definition add32 (x y : Z) : Z := w32 (x + y).

Definition not32 (x : Z) : Z := Z.lxor x (2 ^ 32 - 1).

Definition rotl32 (x c : Z) : Z :=
  w32 (Z.lor (Z.shiftl x c) (Z.shiftr x (32 - c))).

(** floor(2^32 * |sin(i + 1)|), for i = 0 .. 63 *)
Definition K : list Z :=
  [ 3614090360; 3905402710; 606105819; 3250441966;
    4118548399; 1200080426; 2821735955; 4249261313;
    1770035416; 2336552879; 4294925233; 2304563134;
    1804603682; 4254626195; 2792965006; 1236535329;
    4129170786; 3225465664; 643717713; 3921069994;
    3593408605; 38016083; 3634488961; 3889429448;
    568446438; 3275163606; 4107603335; 1163531501;
    2850285829; 4243563512; 1735328473; 2368359562;
    4294588738; 2272392833; 1839030562; 4259657740;
    2763975236; 1272893353; 4139469664; 3200236656;
    681279174; 3936430074; 3572445317; 76029189;
    3654602809; 3873151461; 530742520; 3299628645;
    4096336452; 1126891415; 2878612391; 4237533241;
    1700485571; 2399980690; 4293915773; 2240044497;
    1873313359; 4264355552; 2734768916; 1309151649;
    4149444226; 3174756917; 718787259; 3951481745 ].

(** the rotation of each of the 64 steps *)
Definition S : list Z :=
  [ 7; 12; 17; 22; 7; 12; 17; 22; 7; 12; 17; 22; 7; 12; 17; 22;
    5; 9; 14; 20; 5; 9; 14; 20; 5; 9; 14; 20; 5; 9; 14; 20;
    4; 11; 16; 23; 4; 11; 16; 23; 4; 11; 16; 23; 4; 11; 16; 23;
    6; 10; 15; 21; 6; 10; 15; 21; 6; 10; 15; 21; 6; 10; 15; 21 ].

Definition bytes_of_string (s : string) : list Z :=
  map (fun c => Z.of_N (N_of_ascii c)) (list_ascii_of_string s).

(** little-endian bytes of a word, [n] of them *)
Fixpoint le_bytes (n : nat) (x : Z) : list Z :=
  match n with
  | O => []
  | Datatypes.S n' => x mod 256 :: le_bytes n' (x / 256)
  end.

Fixpoint le_word (bs : list Z) : Z :=
  match bs with
  | [] => 0
  | b :: bs' => b + 256 * le_word bs'
  end.

(** the message, a 1 bit, zeros up to 56 mod 64, the bit length on 64 bits *)
Definition pad (msg : list Z) : list Z :=
  let len := Z.of_nat (List.length msg) in
  (msg ++ [128] ++ repeat 0 (Z.to_nat ((55 - len) mod 64))
       ++ le_bytes 8 ((8 * len) mod 2 ^ 64))%list.

Fixpoint chunks (size count : nat) (l : list Z) : list (list Z) :=
  match count with
  | O => []
  | Datatypes.S count' => firstn size l :: chunks size count' (skipn size l)
  end.

Definition words (block : list Z) : list Z :=
  map le_word (chunks 4 16 block).

Definition State : Type := Z * Z * Z * Z.

Definition step (M : list Z) (st : State) (i : nat) : State :=
  let '(a, b, c, d) := st in
  let iz := Z.of_nat i in
  let '(f, g) :=
    match (i / 16)%nat with
    | 0%nat => (Z.lor (Z.land b c) (Z.land (not32 b) d), iz)
    | 1%nat => (Z.lor (Z.land d b) (Z.land (not32 d) c), (5 * iz + 1) mod 16)
    | 2%nat => (Z.lxor (Z.lxor b c) d, (3 * iz + 5) mod 16)
    | _ => (Z.lxor c (Z.lor b (not32 d)), (7 * iz) mod 16)
    end in
  let f' := add32 (add32 (add32 f a) (nth i K 0)) (nth (Z.to_nat g) M 0) in
  (d, add32 b (rotl32 f' (nth i S 0)), b, c).

Definition compress (st : State) (block : list Z) : State :=
  let '(a0, b0, c0, d0) := st in
  let '(a, b, c, d) := fold_left (step (words block)) (seq 0 64) st in
  (add32 a0 a, add32 b0 b, add32 c0 c, add32 d0 d).

Definition init : State := (1732584193, 4023233417, 2562383102, 271733878).

Definition digest (msg : list Z) : list Z :=
  let p := pad msg in
  let '(a, b, c, d) :=
    fold_left compress (chunks 64 (List.length p / 64) p) init in
  (le_bytes 4 a ++ le_bytes 4 b ++ le_bytes 4 c ++ le_bytes 4 d)%list.

Definition hex_digit (n : Z) : ascii :=
  nth (Z.to_nat n) (list_ascii_of_string "0123456789abcdef") "0"%char.

Fixpoint hex (bs : list Z) : string :=
  match bs with
  | [] => EmptyString
  | b :: bs' => String (hex_digit (b / 16)) (String (hex_digit (b mod 16)) (hex bs'))
  end.

Definition md5 (message : string) : string :=
  hex (digest (bytes_of_string message)).

End MD5.

Definition md5 : string -> string := MD5.md5.

(** ** JavaScript values

    A property of an object literal is absent, present with the value
    [undefined], or present with a value.  Destructuring with a default
    ([const { code = 200 } = option]) takes the default in the first two
    cases; a spread ([{ data, ...option }]) lets every property that
    [option] owns, [undefined] ones too, replace the one before it. *)
Inductive slot (A : Type) : Type :=
| Absent
| Undefined
| Value (a : A).

Arguments Absent {A}.
Arguments Undefined {A}.
Arguments Value {A} a.

Definition or_default {A : Type} (d : A) (s : slot A) : A :=
  match s with
  | Value a => a
  | _ => d
  end.

Definition spread {A : Type} (base over : slot A) : slot A :=
  match over with
  | Absent => base
  | _ => over
  end.

(** an argument that may be omitted, as a property value *)
Definition of_arg {A : Type} (a : option A) : slot A :=
  match a with
  | Some v => Value v
  | None => Undefined
  end.

(** ** Entities ([src/entity/base.ts], [src/entity/user.ts])

    A request body and a where clause are partial entities: every field
    may be missing.  The columns [username] and [password] are declared
    without [nullable: true]: the table takes a new row only from data
    that define both ([insertable] below).  Time stamps are numbers. *)
Module User.

Record t : Type := mk {
  id : option Z;
  createTime : option Z;
  updateTime : option Z;
  username : option string;
  password : option string;
  realname : option string;
  nickname : option string;
  roleId : option string
}.

(** [{}] *)
Definition empty : t := mk None None None None None None None None.

(** [data.password = v] *)
Definition set_password (v : string) (u : t) : t :=
  mk (id u) (createTime u) (updateTime u) (username u) (Some v)
     (realname u) (nickname u) (roleId u).

(** [{ username: name }] *)
Definition by_username (name : option string) : t :=
  mk None None None name None None None None.

End User.

(** What the ORM needs to know of an entity type [T extends BaseEntity]. *)
Class Entity (T : Type) : Type := {
  (** a row satisfies a where clause: it agrees with every field the
      clause defines *)
  satisfies : T -> T -> bool;
  (** the primary key *)
  key : T -> option Z;
  (** the columns that are not nullable and have no default are defined:
      what an insertion needs *)
  insertable : T -> bool;
  (** the generated columns of a new row, where the data leave them out:
      identifier, creation and update time *)
  generate : Z -> Z -> T -> T;
  (** the fields a partial entity defines, written over a row, at a time *)
  assign : Z -> T -> T -> T
}.

Definition agrees {A : Type} (eqb : A -> A -> bool) (clause field : option A) : bool :=
  match clause with
  | None => true
  | Some a =>
      match field with
      | Some b => eqb a b
      | None => false
      end
  end.

Definition overwrite {A : Type} (new old : option A) : option A :=
  match new with
  | Some _ => new
  | None => old
  end.

Definition defined {A : Type} (field : option A) : bool :=
  match field with
  | Some _ => true
  | None => false
  end.

#[export] Instance User_Entity : Entity User.t := {
  satisfies w u :=
    agrees Z.eqb (User.id w) (User.id u)
    && agrees Z.eqb (User.createTime w) (User.createTime u)
    && agrees Z.eqb (User.updateTime w) (User.updateTime u)
    && agrees String.eqb (User.username w) (User.username u)
    && agrees String.eqb (User.password w) (User.password u)
    && agrees String.eqb (User.realname w) (User.realname u)
    && agrees String.eqb (User.nickname w) (User.nickname u)
    && agrees String.eqb (User.roleId w) (User.roleId u);
  key := User.id;
  (* [username] and [password] are the columns without [nullable: true] *)
  insertable u := defined (User.username u) && defined (User.password u);
  generate i now u :=
    User.mk (overwrite (User.id u) (Some i))
            (overwrite (User.createTime u) (Some now))
            (overwrite (User.updateTime u) (Some now))
            (User.username u) (User.password u)
            (User.realname u) (User.nickname u) (User.roleId u);
  assign now p u :=
    User.mk (overwrite (User.id p) (User.id u))
            (overwrite (User.createTime p) (User.createTime u))
            (overwrite (User.updateTime p) (Some now))
            (overwrite (User.username p) (User.username u))
            (overwrite (User.password p) (User.password u))
            (overwrite (User.realname p) (User.realname u))
            (overwrite (User.nickname p) (User.nickname u))
            (overwrite (User.roleId p) (User.roleId u))
}.

(** ** Failures and asynchronous calls

    A method either returns or throws; the table it works on is threaded
    through, and a throw keeps the table as it was at the throw. *)
Inductive Error : Type :=
| CustomHttpError (message : string)
| TypeORMError (message : string)
| QueryFailedError (message : string).

Definition error_message (e : Error) : string :=
  match e with
  | CustomHttpError m => m
  | TypeORMError m => m
  | QueryFailedError m => m
  end.

Inductive Outcome (A : Type) : Type :=
| Returned (a : A)
| Thrown (e : Error).

Arguments Returned {A} a.
Arguments Thrown {A} e.

Section Async.

Context {St : Type}.

Definition Async (A : Type) : Type := St -> Outcome A * St.

Definition ret {A : Type} (a : A) : Async A := fun s => (Returned a, s).

Definition throw {A : Type} (e : Error) : Async A := fun s => (Thrown e, s).

Definition bind {A B : Type} (m : Async A) (k : A -> Async B) : Async B :=
  fun s =>
    match m s with
    | (Returned a, s') => k a s'
    | (Thrown e, s') => (Thrown e, s')
    end.

End Async.

Arguments Async St A : clear implicits.

Declare Scope async_scope.
Delimit Scope async_scope with async.
Notation "x <- m ;; k" := (bind m (fun x => k))
  (at level 61, m at next level, right associativity) : async_scope.
Notation "m ;; k" := (bind m (fun _ => k))
  (at level 61, right associativity) : async_scope.
Local Open Scope async_scope.

(** ** The table behind a repository

    The rows in table order, the next generated identifier and the time of
    the request. *)
Record Table (T : Type) : Type := mkTable {
  rows : list T;
  next_id : Z;
  clock : Z
}.

Arguments mkTable {T} rows next_id clock.
Arguments rows {T} t.
Arguments next_id {T} t.
Arguments clock {T} t.

(** ** The ORM's [Repository<T>]

    The repository is an object of the ORM, outside the sources.  Its
    methods are modelled from the storage contract that section 4.1 of the
    specification gives, with the refusals of the ORM and of the database
    that the columns declared in the sources bring. *)
Module Repository.
Section Repository.

Context {T : Type} `{Entity T}.

(** Modelled from the spec: [findOne({ where })] of the ORM, "returns
    first match or null". *)
Definition findOne (where_ : T) : Async (Table T) (option T) :=
  fun db => (Returned (List.find (satisfies where_) (rows db)), db).

(** Modelled from the spec: [find({ where })] of the ORM, "returns all
    matches"; all rows when the where clause is undefined. *)
Definition find (where_ : option T) : Async (Table T) (list T) :=
  fun db =>
    (Returned match where_ with
              | Some w => List.filter (satisfies w) (rows db)
              | None => rows db
              end, db).

(** Modelled from the spec: [findAndCount({ where: {}, take, skip })] of
    the ORM, "a slice plus ... total count": at most [take] rows after the
    first [skip], and the count of all rows.  The database refuses a
    negative limit or offset. *)
Definition findAndCount (take skip : Z) : Async (Table T) (list T * Z) :=
  fun db =>
    if (take <? 0) || (skip <? 0)
    then (Thrown (TypeORMError "You have an error in your SQL syntax"), db)
    else (Returned (firstn (Z.to_nat take) (skipn (Z.to_nat skip) (rows db)),
                    Z.of_nat (List.length (rows db))), db).

Definition has_key (i : Z) (row : T) : bool :=
  match key row with
  | Some j => i =? j
  | None => false
  end.

(** the first row that [f] accepts, replaced by its image under [g] *)
Fixpoint replace_first (f : T -> bool) (g : T -> T) (l : list T) : list T :=
  match l with
  | [] => []
  | row :: l' =>
      if f row then g row :: l' else row :: replace_first f g l'
  end.

(** Modelled from the spec: [save(entity)] of the ORM, "inserts a record
    and returns it", the identifier being "auto-generated" like the audit
    time stamps.  An entity that carries the identifier of a stored row is
    not inserted: the fields it defines are written over that row, and the
    entity comes back with the update time.  An insertion keeps the
    identifier and the time stamps that the entity carries, and the
    database refuses it when a column that is not nullable is missing. *)
Definition save (data : T) : Async (Table T) T :=
  fun db =>
    let stored :=
      match key data with
      | Some i => existsb (has_key i) (rows db)
      | None => false
      end in
    if stored
    then
      let i := match key data with Some i => i | None => 0 end in
      (Returned (assign (clock db) data data),
       mkTable (replace_first (has_key i) (assign (clock db) data) (rows db))
               (next_id db) (clock db))
    else if insertable data
    then
      let row := generate (next_id db) (clock db) data in
      (Returned row,
       mkTable (rows db ++ [row])%list
               match key row with
               | Some j => Z.max (next_id db) (j + 1)
               | None => next_id db + 1
               end
               (clock db))
    else (Thrown (QueryFailedError "Field doesn't have a default value"), db).

(** Modelled from the spec: [update(id, partial)] of the ORM, "applies a
    partial update keyed by id"; the result is the number of rows
    affected.  The ORM refuses an undefined criteria. *)
Definition update (criteria : option Z) (partial : T) : Async (Table T) Z :=
  fun db =>
    match criteria with
    | None =>
        (Thrown (TypeORMError
           "Empty criteria(s) are not allowed for the update method."), db)
    | Some i =>
        (Returned (Z.of_nat (List.length (List.filter (has_key i) (rows db)))),
         mkTable (map (fun row => if has_key i row
                                  then assign (clock db) partial row
                                  else row) (rows db))
                 (next_id db) (clock db))
    end.

(** Modelled from the spec: [delete(ids)] of the ORM, "removes one or more
    records"; the result is the number of rows removed.  The ORM refuses
    an empty list of identifiers. *)
Definition delete (ids : list Z) : Async (Table T) Z :=
  fun db =>
    match ids with
    | [] =>
        (Thrown (TypeORMError
           "Empty criteria(s) are not allowed for the delete method."), db)
    | _ :: _ =>
        let doomed row := existsb (fun i => has_key i row) ids in
        (Returned (Z.of_nat (List.length (List.filter doomed (rows db)))),
         mkTable (List.filter (fun row => negb (doomed row)) (rows db))
                 (next_id db) (clock db))
    end.

End Repository.
End Repository.

(** ** [src/service/base.ts] *)
Module Pagination.
Record t : Type := mk { total : Z; size : Z; page : Z }.
End Pagination.

Module Page.
(** [{ list, pagination: { total, size, page } }] *)
Record t (T : Type) : Type := mk {
  list : Datatypes.list T;
  pagination : Pagination.t
}.
Arguments mk {T} list pagination.
Arguments list {T} t.
Arguments pagination {T} t.
End Page.

Module PageQuery.
(** the [page] and [size] properties of the body of a page request *)
Record t : Type := mk { page : option Z; size : option Z }.
End PageQuery.

Module BaseService.
Section BaseService.

Context {T : Type} `{Entity T}.

Definition add (query : T) : Async (Table T) T :=
  Repository.save query.

Definition update (query : T) : Async (Table T) Z :=
  Repository.update (key query) query.

Definition delete (ids : Datatypes.list Z) : Async (Table T) Z :=
  Repository.delete ids.

Definition info (data : T) : Async (Table T) (option T) :=
  Repository.findOne data.

Definition page (data : PageQuery.t) : Async (Table T) (Page.t T) :=
  let page := match PageQuery.page data with Some p => p | None => 1 end in
  let size := match PageQuery.size data with Some s => s | None => 10 end in
  r <- Repository.findAndCount size ((page - 1) * size) ;;
  let '(list, total) := r in
  ret (Page.mk list (Pagination.mk total size page)).

Definition list (data : option T) : Async (Table T) (Datatypes.list T) :=
  Repository.find data.

End BaseService.
End BaseService.

(** ** [src/service/user.ts] *)
Module UserService.

Definition Db : Type := Table User.t.

Definition add (data : User.t) : Async Db User.t :=
  user <- Repository.findOne (User.by_username (User.username data)) ;;
  match user with
  | Some _ => throw (CustomHttpError "用户已存在")
  | None =>
      (* if (data.password): present and not the empty string *)
      let data :=
        match User.password data with
        | Some plain =>
            if (plain =? "")%string then data
            else User.set_password (md5 plain) data
        | None => data
        end in
      BaseService.add data
  end.

Definition update (data : User.t) : Async Db Z :=
  let data :=
    match User.password data with
    | Some plain =>
        if (plain =? "")%string then data
        else User.set_password (md5 plain) data
    | None => data
    end in
  BaseService.update data.

(** the methods the service inherits unchanged *)
Definition info : User.t -> Async Db (option User.t) := BaseService.info.
Definition page : PageQuery.t -> Async Db (Page.t User.t) := BaseService.page.
Definition list : option User.t -> Async Db (Datatypes.list User.t) :=
  BaseService.list.
Definition delete : Datatypes.list Z -> Async Db Z := BaseService.delete.

End UserService.

(** ** [src/utils/result.ts] *)

(** the values a handler puts in the [data] of a response *)
Inductive Payload : Type :=
| Null
| Row (u : User.t)
| Rows (l : list User.t)
| Paged (p : Page.t User.t)
| Text (s : string).

Definition DEFAULT_SUCCESS_CODE : Z := 200.
Definition DEFAULT_ERROR_CODE : Z := 900.

Module IResult.
Record t : Type := mk {
  data : slot Payload;
  code : slot Z;
  message : slot string
}.
(** [{}] *)
Definition empty : t := mk Absent Absent Absent.
End IResult.

Module Result.

(** [success<T>(option: IResult<T> = {})] *)
Definition success (option_ : option IResult.t) : IResult.t :=
  let o := match option_ with Some o => o | None => IResult.empty end in
  let data := or_default Null (IResult.data o) in
  let code := or_default DEFAULT_SUCCESS_CODE (IResult.code o) in
  let message := or_default "success" (IResult.message o) in
  IResult.mk (Value data) (Value code) (Value message).

(** [error(option: IResult = {})] *)
Definition error (option_ : option IResult.t) : IResult.t :=
  let o := match option_ with Some o => o | None => IResult.empty end in
  let data := or_default Null (IResult.data o) in
  let code := or_default DEFAULT_ERROR_CODE (IResult.code o) in
  let message := or_default "error" (IResult.message o) in
  IResult.mk (Value data) (Value code) (Value message).

End Result.

(** ** [src/controller/base.ts] *)
Module BaseController.

(** [Result.success<T>({ data, ...option })] *)
Definition success (data : option Payload) (option_ : option IResult.t) : IResult.t :=
  let o := match option_ with Some o => o | None => IResult.empty end in
  Result.success
    (Some (IResult.mk (spread (of_arg data) (IResult.data o))
                      (spread Absent (IResult.code o))
                      (spread Absent (IResult.message o)))).

(** [Result.error({ message, ...option })] *)
Definition error (message : option string) (option_ : option IResult.t) : IResult.t :=
  let o := match option_ with Some o => o | None => IResult.empty end in
  Result.error
    (Some (IResult.mk (spread Absent (IResult.data o))
                      (spread Absent (IResult.code o))
                      (spread (of_arg message) (IResult.message o)))).

End BaseController.

(** ** [src/controller/user.ts] *)
Module Body.
(** the parsed body of a request: the properties of the entity and the
    paging properties *)
Record t : Type := mk { entity : User.t; paging : PageQuery.t }.
End Body.

Module UserController.
Section UserController.

(** The two methods of the service that the controller calls and the
    sources do not hold. *)
Variable service_login : User.t -> Async UserService.Db Payload.
Variable service_getImageCaptcha : Async UserService.Db Payload.

Definition Handler : Type := Async UserService.Db IResult.t.

Definition list : Handler :=
  list <- UserService.list None ;;
  ret (BaseController.success (Some (Rows list)) None).

Definition page (data : PageQuery.t) : Handler :=
  res <- UserService.page data ;;
  ret (BaseController.success (Some (Paged res)) None).

(** the handler also writes the body to the console, which no response
    depends on *)
Definition info (data : User.t) : Handler :=
  res <- UserService.info data ;;
  ret (BaseController.success
         (Some match res with Some u => Row u | None => Null end) None).

Definition add (data : User.t) : Handler :=
  res <- UserService.add data ;;
  ret (BaseController.success (Some (Row res)) None).

Definition update (data : User.t) : Handler :=
  UserService.update data ;;
  ret (BaseController.success None None).

Definition login (data : User.t) : Handler :=
  res <- service_login data ;;
  ret (BaseController.success (Some res) None).

Definition getCaptchaImage (data : User.t) : Handler :=
  res <- service_getImageCaptcha ;;
  ret (BaseController.success (Some res) None).

(** [@Controller('/user')] and the [@Post] of each method; a method
    receives the body where it declares [@Body()] *)
Definition route (path : string) (body : Body.t) : option Handler :=
  if (path =? "/user/list")%string then Some list
  else if (path =? "/user/page")%string then Some (page (Body.paging body))
  else if (path =? "/user/info")%string then Some (info (Body.entity body))
  else if (path =? "/user/add")%string then Some (add (Body.entity body))
  else if (path =? "/user/update")%string then Some (update (Body.entity body))
  else if (path =? "/user/login")%string then Some (login (Body.entity body))
  else if (path =? "/user/getCaptchaImage")%string
       then Some (getCaptchaImage (Body.entity body))
  else None.

End UserController.
End UserController.

(** ** The parts outside the sources *)

Module Captcha.

(** an entry of the transient cache: a value to verify, under the
    identifier that the client supplied, until its expiry *)
Record entry : Type := mk {
  identifier : string;
  value : string;
  expires : Z
}.

Definition Cache : Type := list entry.

(** Modelled from the spec: the verification of a captcha, which the
    sources do not hold.  Section 1: "cache it keyed by a session
    identifier, verify it on login"; section 3: the values are "held
    transiently in a cache store keyed by a client-supplied identifier
    with an expiry".  The answer of a request verifies when the cache
    holds it under the identifier of the request and has not expired. *)
Definition verify (cache : Cache) (now : Z) (id answer : option string) : bool :=
  match id, answer with
  | Some k, Some a =>
      match List.find (fun e => (identifier e =? k)%string) cache with
      | Some e => (value e =? a)%string && (now <? expires e)
      | None => false
      end
  | _, _ => false
  end.

End Captcha.

Module Login.
Section Login.

(** The messages of the two refusals and the value issued on success,
    which the specification does not detail. *)
Variable captcha_refusal : string.
Variable refusal : string.
Variable issue : User.t -> Payload.

Definition same_password (hashed stored : option string) : bool :=
  match hashed, stored with
  | Some h, Some s => (h =? s)%string
  | _, _ => false
  end.

(** Modelled from the spec: the [login] method of the user service, which
    [src/service/user.ts] as given does not hold.  Section 1: the flow is
    to "verify [the captcha] on login, hash the submitted password, issue
    a token"; section 4.2: it "looks up user by username, compares hashed
    password, issues a success/error result"; section 7: an error is the
    custom error kind with a human-readable message.  The cache and the
    captcha that the request answers come with the call. *)
Definition login (cache : Captcha.Cache) (id answer : option string)
  (data : User.t) : Async UserService.Db Payload :=
  fun db =>
    if Captcha.verify cache (clock db) id answer
    then
      (user <- Repository.findOne (User.by_username (User.username data)) ;;
       match user with
       | None => throw (CustomHttpError refusal)
       | Some u =>
           if same_password (option_map md5 (User.password data))
                            (User.password u)
           then ret (issue u)
           else throw (CustomHttpError refusal)
       end) db
    else throw (CustomHttpError captcha_refusal) db.

End Login.
End Login.

Module ErrorPath.

(** Modelled from the spec: the error path between a handler and the
    client, which the sources do not hold.  Section 7: "handlers catch and
    translate to the error envelope with a fixed error code"; "every
    failure surfaces identically to the client as {code:900, message}".
    The translation is the [error] method of the base controller, on the
    message of the failure. *)
Definition translate (e : Error) : IResult.t :=
  BaseController.error (Some (error_message e)) None.

(** Modelled from the spec: what the client receives from a handler, its
    answer or the translation of what it throws. *)
Definition respond (h : UserController.Handler) (db : UserService.Db)
  : IResult.t * UserService.Db :=
  match h db with
  | (Returned r, db') => (r, db')
  | (Thrown e, db') => (translate e, db')
  end.

End ErrorPath.

(** ** The vocabulary of the properties *)

(** [first_match f l x]: [x] is the first element of [l] that [f] accepts *)
Definition first_match {A : Type} (f : A -> bool) (l : list A) (x : A) : Prop :=
  exists before after,
    l = (before ++ x :: after)%list
    /\ Forall (fun y => f y = false) before
    /\ f x = true.

(** no stored user has this name *)
Definition free_name (name : string) (db : UserService.Db) : Prop :=
  forall u, In u (rows db) -> User.username u <> Some name.

(** a stored user has this name *)
Definition taken_name (name : string) (db : UserService.Db) : Prop :=
  exists u, In u (rows db) /\ User.username u = Some name.

(** the password [add] and [update] hand to the generic service *)
Definition hashed (submitted : option string) : option string :=
  match submitted with
  | Some plain => if (plain =? "")%string then Some plain else Some (md5 plain)
  | None => None
  end.

(** the three properties are present, with values *)
Definition well_formed (r : IResult.t) : Prop :=
  exists d c m, r = IResult.mk (Value d) (Value c) (Value m).

(** the result carries the given value, or the default where none is given *)
Definition defaults_to {A : Type} (d : A) (given result : slot A) : Prop :=
  match given with
  | Value a => result = Value a
  | _ => result = Value d
  end.

(** ** Sample data *)
Definition alice : User.t :=
  User.mk (Some 1) (Some 1000) (Some 1000) (Some "alice")
          (Some (md5 "wonderland")) (Some "Alice L.") None (Some "1,2").

Definition bob : User.t :=
  User.mk (Some 2) (Some 1001) (Some 1001) (Some "bob")
          (Some (md5 "builder")) None (Some "Bob") None.

Definition two_users : UserService.Db := mkTable [alice; bob] 3 2000.

Definition many_users : UserService.Db :=
  mkTable (map (fun i => User.mk (Some (Z.of_nat i)) (Some 1000) (Some 1000)
                                 (Some (String (ascii_of_nat (96 + i)) ""))
                                 None None None None)
               (seq 1 25)) 26 2000.

(** the data carry no identifier, or one that no stored user has *)
Definition new_id (data : User.t) (db : UserService.Db) : Prop :=
  match User.id data with
  | Some i => forall u, In u (rows db) -> User.id u <> Some i
  | None => True
  end.

(** the data as [add] and [update] hand them to the generic service *)
Definition prepared (data : User.t) : User.t :=
  User.mk (User.id data) (User.createTime data) (User.updateTime data)
          (User.username data) (hashed (User.password data))
          (User.realname data) (User.nickname data) (User.roleId data).


(** the records of page [page] at [size] records a page, nothing when the
    call throws *)
Definition page_list {T : Type} `{Entity T} (page size : Z) (db : Table T) : list T :=
  match fst (BaseService.page (PageQuery.mk (Some page) (Some size)) db) with
  | Returned r => Page.list r
  | Thrown _ => []
  end.

(** [{ id: i }] *)
Definition by_id (i : Z) : User.t :=
  User.mk (Some i) None None None None None None None.

(** * Properties *)

Arguments md5 : simpl never.

(** ** The first match of a list *)
Section FirstMatch.

Context {A : Type} (f : A -> bool).

Lemma find_first_match (l : list A) (x : A) :
  List.find f l = Some x -> first_match f l x.
Proof.
  induction l as [| y l IH]; simpl; [discriminate |].
  destruct (f y) eqn:Hy.
  - intros [= <-]. exists [], l. repeat split; auto.
  - intros Hfind. destruct (IH Hfind) as (before & after & -> & Hno & Hx).
    exists (y :: before), after. repeat split; auto.
Qed.

Lemma first_match_find (l : list A) (x : A) :
  first_match f l x -> List.find f l = Some x.
Proof.
  intros (before & after & -> & Hno & Hx).
  induction Hno as [| y before Hy _ IH]; simpl.
  - now rewrite Hx.
  - now rewrite Hy.
Qed.

Lemma find_no_match (l : list A) :
  List.find f l = None <-> forall y, In y l -> f y = false.
Proof.
  split.
  - intros Hnone y. now apply find_none.
  - induction l as [| y l IH]; simpl; [reflexivity |]. intros Hall.
    rewrite (Hall y (or_introl eq_refl)). apply IH. intros z Hz.
    apply Hall. now right.
Qed.

End FirstMatch.

(** ** Where clauses on users *)
Lemma satisfies_by_username (name : string) (u : User.t) :
  satisfies (User.by_username (Some name)) u = true
  <-> User.username u = Some name.
Proof.
  unfold satisfies; simpl.
  destruct (User.username u) as [n |]; simpl.
  - rewrite !andb_true_r, String.eqb_eq.
    split; [now intros -> | now intros [= ->]].
  - split; discriminate.
Qed.

Lemma not_satisfies_by_username (name : string) (u : User.t) :
  satisfies (User.by_username (Some name)) u = false
  <-> User.username u <> Some name.
Proof.
  rewrite <- satisfies_by_username.
  destruct (satisfies _ u); split; congruence.
Qed.


Lemma findOne_taken (name : string) (db : UserService.Db) :
  taken_name name db ->
  exists u, Repository.findOne (User.by_username (Some name)) db
            = (Returned (Some u), db).
Proof.
  intros (u & Hin & Hname). unfold Repository.findOne.
  destruct (List.find _ (rows db)) as [v |] eqn:Hfind; [now exists v |].
  rewrite find_no_match in Hfind.
  apply Hfind in Hin. apply not_satisfies_by_username in Hin. contradiction.
Qed.



(** ** The digest is not the message *)

(** the test suite of RFC 1321, appendix A.5 *)
Example md5_test_suite :
  md5 "" = "d41d8cd98f00b204e9800998ecf8427e"
  /\ md5 "a" = "0cc175b9c0f1b6a831c399e269772661"
  /\ md5 "abc" = "900150983cd24fb0d6963f7d28e17f72"
  /\ md5 "message digest" = "f96b697d7cb7938d525a2f31aaf161d0"
  /\ md5 "abcdefghijklmnopqrstuvwxyz" = "c3fcd3d76192e4007dfb496cca67e13b"
  /\ md5 "ABCDEFGHIJKLMNOPQRSTUVWXYZabcdefghijklmnopqrstuvwxyz0123456789"
     = "d174ab98d277d9f5a5611c2c9f419d9f"
  /\ md5 "12345678901234567890123456789012345678901234567890123456789012345678901234567890"
     = "57edf4a22be3c955ac49da2e2107b67a".
Proof. vm_compute. repeat split. Qed.

Lemma hex_length (bs : list Z) :
  String.length (MD5.hex bs) = (2 * List.length bs)%nat.
Proof.
  induction bs as [| b bs IH]; simpl; [reflexivity |]. rewrite IH. lia.
Qed.

Lemma md5_length (message : string) : String.length (md5 message) = 32%nat.
Proof.
  unfold md5, MD5.md5, MD5.digest. rewrite hex_length.
  destruct (fold_left _ _ _) as [[[a b] c] d]. reflexivity.
Qed.

Lemma md5_differs (message : string) :
  String.length message <> 32%nat -> md5 message <> message.
Proof.
  intros Hlen Heq. apply Hlen. rewrite <- Heq. apply md5_length.
Qed.

(** ** Rows and identifiers *)
Lemma has_key_id (i : Z) (row : User.t) :
  Repository.has_key i row = true <-> User.id row = Some i.
Proof.
  unfold Repository.has_key. simpl. destruct (User.id row) as [j |].
  - rewrite Z.eqb_eq. split; [now intros -> | now intros [= ->]].
  - split; discriminate.
Qed.

Lemma has_key_other (i : Z) (row : User.t) :
  Repository.has_key i row = false <-> User.id row <> Some i.
Proof.
  rewrite <- has_key_id. destruct (Repository.has_key i row); split; congruence.
Qed.

Lemma no_row_has_key (i : Z) (l : list User.t) :
  existsb (Repository.has_key i) l = false
  <-> forall u, In u l -> User.id u <> Some i.
Proof.
  split.
  - intros Hnone u Hin. apply has_key_other.
    destruct (Repository.has_key i u) eqn:Hkey; [| reflexivity].
    rewrite <- Hnone. symmetry. apply existsb_exists. now exists u.
  - intros Hall. destruct (existsb _ l) eqn:Hsome; [| reflexivity].
    apply existsb_exists in Hsome. destruct Hsome as (u & Hin & Hkey).
    apply has_key_id in Hkey. now destruct (Hall u Hin).
Qed.

Section ReplaceFirst.

Context {T : Type} `{Entity T} (f : T -> bool) (g : T -> T).

Lemma replace_first_split (l : list T) :
  existsb f l = true ->
  exists before x after,
    l = (before ++ x :: after)%list
    /\ Forall (fun y => f y = false) before
    /\ f x = true
    /\ Repository.replace_first f g l = (before ++ g x :: after)%list.
Proof.
  induction l as [| y l IH]; simpl; [discriminate |].
  destruct (f y) eqn:Hy; simpl.
  - intros _. exists [], y, l. repeat split; auto.
  - intros Hsome.
    destruct (IH Hsome) as (before & x & after & -> & Hno & Hx & ->).
    exists (y :: before), x, after. repeat split; auto.
Qed.

Lemma replace_first_length (l : list T) :
  List.length (Repository.replace_first f g l) = List.length l.
Proof.
  induction l as [| y l IH]; simpl; [reflexivity |].
  destruct (f y); simpl; [reflexivity | now rewrite IH].
Qed.

End ReplaceFirst.

(** ** Adding a user *)

Lemma add_runs (data : User.t) (db : UserService.Db) :
  UserService.add data db
  = match List.find (satisfies (User.by_username (User.username data)))
                    (rows db) with
    | Some _ => (Thrown (CustomHttpError "用户已存在"), db)
    | None => Repository.save (prepared data) db
    end.
Proof.
  unfold UserService.add, bind, Repository.findOne, BaseService.add.
  destruct (List.find _ (rows db)); [reflexivity |].
  unfold prepared, hashed.
  destruct data as [i ct ut un [plain |] rn nn ri]; simpl;
    [destruct (plain =? "")%string |]; reflexivity.
Qed.

Lemma find_free (name : string) (db : UserService.Db) :
  free_name name db ->
  List.find (satisfies (User.by_username (Some name))) (rows db) = None.
Proof.
  intros Hfree. apply find_no_match. intros u Hin.
  apply not_satisfies_by_username. now apply Hfree.
Qed.

Lemma add_taken (data : User.t) (name : string) (db : UserService.Db) :
  User.username data = Some name ->
  taken_name name db ->
  UserService.add data db = (Thrown (CustomHttpError "用户已存在"), db).
Proof.
  intros Hname Htaken. unfold UserService.add, bind.
  destruct (findOne_taken name db Htaken) as [u Hu].
  now rewrite Hname, Hu.
Qed.


Lemma new_id_not_stored (data : User.t) (db : UserService.Db) :
  new_id data db ->
  match User.id data with
  | Some i => existsb (Repository.has_key i) (rows db)
  | None => false
  end = false.
Proof.
  unfold new_id. destruct (User.id data) as [i |]; [| reflexivity].
  apply no_row_has_key.
Qed.

(** the row that an insertion of the prepared data stores *)
Lemma add_new_row (data : User.t) (name plain : string) (db : UserService.Db) :
  User.username data = Some name ->
  free_name name db ->
  User.password data = Some plain ->
  new_id data db ->
  let j := match User.id data with Some i => i | None => next_id db end in
  let row := User.mk (Some j)
                     (overwrite (User.createTime data) (Some (clock db)))
                     (overwrite (User.updateTime data) (Some (clock db)))
                     (Some name) (hashed (Some plain))
                     (User.realname data) (User.nickname data)
                     (User.roleId data) in
  UserService.add data db
  = (Returned row,
     mkTable (rows db ++ [row]) (Z.max (next_id db) (j + 1)) (clock db)).
Proof.
  intros Hname Hfree Hplain Hnew. rewrite add_runs, Hname, (find_free name db Hfree).
  unfold Repository.save. change (key (prepared data)) with (User.id data).
  rewrite (new_id_not_stored data db Hnew).
  unfold prepared. simpl. rewrite Hname, Hplain. unfold hashed.
  destruct (plain =? "")%string; destruct (User.id data); reflexivity.
Qed.


(** the row that a save under a stored identifier writes *)
Lemma add_over_stored (data : User.t) (name : string) (i : Z) (db : UserService.Db) :
  User.username data = Some name ->
  free_name name db ->
  User.id data = Some i ->
  (exists u, In u (rows db) /\ User.id u = Some i) ->
  exists before old after,
    rows db = (before ++ old :: after)%list
    /\ Forall (fun u => User.id u <> Some i) before
    /\ User.id old = Some i
    /\ UserService.add data db
       = (Returned (assign (clock db) (prepared data) (prepared data)),
          mkTable (before ++ assign (clock db) (prepared data) old :: after)
                  (next_id db) (clock db)).
Proof.
  intros Hname Hfree Hid (u & Hin & Hu).
  assert (Hstored : existsb (Repository.has_key i) (rows db) = true).
  { apply existsb_exists. exists u. split; [exact Hin | now apply has_key_id]. }
  destruct (replace_first_split (Repository.has_key i)
              (assign (clock db) (prepared data)) (rows db) Hstored)
    as (before & old & after & Hrows & Hbefore & Hold & Hreplaced).
  exists before, old, after. split; [exact Hrows |]. split; [| split].
  - apply Forall_forall. intros v Hv. apply has_key_other.
    now apply (proj1 (Forall_forall _ _) Hbefore).
  - now apply has_key_id.
  - rewrite add_runs, Hname, (find_free name db Hfree).
    unfold Repository.save. change (key (prepared data)) with (User.id data).
    rewrite Hid, Hstored, Hreplaced. reflexivity.
Qed.

Lemma name_taken_or_free (name : string) (db : UserService.Db) :
  taken_name name db \/ free_name name db.
Proof.
  unfold taken_name, free_name.
  induction (rows db) as [| u l [(v & Hin & Hv) | Hfree]].
  - right. intros u [].
  - left. exists v. split; [now right | exact Hv].
  - destruct (User.username u) as [n |] eqn:Hn.
    + destruct (String.eqb_spec n name) as [-> | Hne].
      * left. exists u. split; [now left | exact Hn].
      * right. intros w [<- | Hw]; [congruence | now apply Hfree].
    + right. intros w [<- | Hw]; [congruence | now apply Hfree].
Qed.




(** The example of section 8 of the specification: [POST /user/add] of
    [{username: "a", password: "p"}] answers the success envelope, with
    the identifier set and the password hashed; the same request again
    answers the error envelope with "用户已存在". *)
Example add_twice :
  let request := User.mk None None None (Some "a") (Some "p") None None None in
  let stored := User.mk (Some 3) (Some 2000) (Some 2000) (Some "a")
                        (Some "83878c91171338902e0fe0fb97a8c47a")
                        None None None in
  let db' := mkTable [alice; bob; stored] 4 2000 in
  ErrorPath.respond (UserController.add request) two_users
  = (IResult.mk (Value (Row stored)) (Value 200) (Value "success"), db')
  /\ ErrorPath.respond (UserController.add request) db'
     = (IResult.mk (Value Null) (Value 900) (Value "用户已存在"), db').
Proof. vm_compute. split; reflexivity. Qed.




(** ** Updating a user *)
Lemma update_without_id (data : User.t) (db : UserService.Db) :
  User.id data = None ->
  exists e, UserService.update data db = (Thrown e, db).
Proof.
  intros Hid. unfold UserService.update, BaseService.update, Repository.update.
  eexists.
  destruct (User.password data) as [plain |];
    [destruct (plain =? "")%string |]; simpl; rewrite ?Hid; reflexivity.
Qed.

Lemma update_with_id (data : User.t) (i : Z) (db : UserService.Db) :
  User.id data = Some i ->
  UserService.update data db
  = (Returned (Z.of_nat (List.length (List.filter (Repository.has_key i) (rows db)))),
     mkTable (map (fun row =>
                     if Repository.has_key i row
                     then User.mk (Some i)
                                  (overwrite (User.createTime data) (User.createTime row))
                                  (overwrite (User.updateTime data) (Some (clock db)))
                                  (overwrite (User.username data) (User.username row))
                                  (overwrite (hashed (User.password data)) (User.password row))
                                  (overwrite (User.realname data) (User.realname row))
                                  (overwrite (User.nickname data) (User.nickname row))
                                  (overwrite (User.roleId data) (User.roleId row))
                     else row) (rows db))
             (next_id db) (clock db)).
Proof.
  intros Hid. unfold UserService.update, BaseService.update, Repository.update, hashed.
  destruct data as [di ct ut un [plain |] rn nn ri]; simpl in *; subst di;
    [destruct (plain =? "")%string |]; reflexivity.
Qed.

Lemma hashed_plain (plain : string) :
  plain <> "" -> hashed (Some plain) = Some (md5 plain).
Proof.
  intros Hne. apply String.eqb_neq in Hne. unfold hashed. now rewrite Hne.
Qed.

(** C2. Adding or updating a user with a password that is present and not
    the empty string stores the md5 digest of that password.  [add] either
    throws with nothing stored or returns the record with the digest as
    password, and the table then holds the row of that record, under its
    identifier, with the digest as password; [update] either throws with
    nothing stored or writes the digest to every row with the identifier
    of the data and leaves the other rows as they were.  The digest has 32
    characters; the stored value is the plain text only where the plain
    text is its own digest. *)
Theorem password_is_stored_hashed
  (data : User.t) (plain : string) (db : UserService.Db) :
  User.password data = Some plain ->
  plain <> "" ->
  match UserService.add data db with
  | (Returned row, db') =>
      User.password row = Some (md5 plain)
      /\ exists stored,
           In stored (rows db')
           /\ User.id stored = User.id row
           /\ User.password stored = Some (md5 plain)
           /\ (User.password stored = Some plain -> md5 plain = plain)
  | (Thrown _, db') => db' = db
  end
  /\ match UserService.update data db with
     | (Returned _, db') =>
         exists i,
           User.id data = Some i
           /\ Forall2 (fun old new =>
                         (User.id old = Some i ->
                          User.password new = Some (md5 plain)
                          /\ (User.password new = Some plain -> md5 plain = plain))
                         /\ (User.id old <> Some i -> new = old))
                      (rows db) (rows db')
     | (Thrown _, db') => db' = db
     end
  /\ (String.length plain <> 32%nat -> md5 plain <> plain).
Proof.
  intros Hpw Hne. pose proof (hashed_plain plain Hne) as Hhashed.
  split; [| split].
  - rewrite add_runs.
    destruct (List.find _ (rows db)); [reflexivity |].
    unfold Repository.save. change (key (prepared data)) with (User.id data).
    destruct (User.id data) as [i |] eqn:Hid.
    + destruct (existsb (Repository.has_key i) (rows db)) eqn:Hstored.
      * destruct (replace_first_split (Repository.has_key i)
                    (assign (clock db) (prepared data)) (rows db) Hstored)
          as (before & old & after & _ & _ & _ & Hreplaced).
        rewrite Hreplaced. simpl. rewrite Hpw, Hhashed.
        split; [reflexivity |]. eexists.
        split; [apply in_app_iff; right; left; reflexivity |].
        simpl. rewrite ?Hid, ?Hpw, ?Hhashed. simpl.
        repeat split. now intros [= ->].
      * unfold prepared. simpl. rewrite Hpw, Hhashed, Hid.
        destruct (User.username data); simpl; [| reflexivity].
        split; [reflexivity |]. eexists.
        split; [apply in_app_iff; right; left; reflexivity |].
        simpl. repeat split. now intros [= ->].
    + unfold prepared. simpl. rewrite Hpw, Hhashed, Hid.
      destruct (User.username data); simpl; [| reflexivity].
      split; [reflexivity |]. eexists.
      split; [apply in_app_iff; right; left; reflexivity |].
      simpl. repeat split. now intros [= ->].
  - destruct (User.id data) as [i |] eqn:Hid.
    + rewrite (update_with_id data i db Hid). exists i. split; [reflexivity |].
      simpl. induction (rows db) as [| row l IH]; simpl; constructor; [| exact IH].
      destruct (Repository.has_key i row) eqn:Hkey.
      * split; [| apply has_key_id in Hkey; congruence].
        intros _. rewrite Hpw, Hhashed. simpl. split; [reflexivity |].
        now intros [= ->].
      * apply has_key_other in Hkey. split; [congruence | reflexivity].
    + destruct (update_without_id data db Hid) as [e ->]. reflexivity.
  - apply md5_differs.
Qed.

Lemma password_is_stored_hashed_witness :
  (exists row db' stored,
     UserService.add
       (User.mk None None None (Some "carol") (Some "p") None None None)
       two_users = (Returned row, db')
     /\ In stored (rows db')
     /\ User.id stored = User.id row
     /\ User.password stored = Some (md5 "p")
     /\ md5 "p" = "83878c91171338902e0fe0fb97a8c47a")
  /\ (exists n db',
        UserService.update
          (User.mk (Some 2) None None None (Some "p") None None None)
          two_users = (Returned n, db')
        /\ map User.password (rows db')
           = [User.password alice; Some (md5 "p")]).
Proof.
  split.
  - destruct (password_is_stored_hashed
                (User.mk None None None (Some "carol") (Some "p") None None None)
                "p" two_users eq_refl ltac:(discriminate)) as (Hadd & _ & _).
    destruct (UserService.add _ two_users) as [[row | e] db'] eqn:Hrun.
    + destruct Hadd as (_ & stored & Hin & Hid & Hpw & _).
      exists row, db', stored. split; [reflexivity |].
      repeat split; assumption.
    + vm_compute in Hrun. discriminate.
  - destruct (password_is_stored_hashed
                (User.mk (Some 2) None None None (Some "p") None None None)
                "p" two_users eq_refl ltac:(discriminate)) as (_ & Hupdate & _).
    destruct (UserService.update _ two_users) as [[n | e] db'] eqn:Hrun.
    + exists n, db'. split; [reflexivity |].
      destruct Hupdate as (i & [= <-] & Hrows).
      change (rows two_users) with [alice; bob] in Hrows.
      inversion Hrows as [| o1 n1 lo1 ln1 [_ Hkeep] Hrest Ho1 Hn1].
      inversion Hrest as [| o2 n2 lo2 ln2 [Hset _] Hend Ho2 Hn2].
      inversion Hend. simpl.
      rewrite (Hkeep ltac:(discriminate)).
      destruct (Hset eq_refl) as [-> _]. reflexivity.
    + vm_compute in Hrun. discriminate.
Defined.

(** ** The generic service *)
Section Generic.

Context {T : Type} `{Entity T}.

Lemma page_in_range (page size : Z) (db : Table T) :
  0 <= size -> 0 <= (page - 1) * size ->
  BaseService.page (PageQuery.mk (Some page) (Some size)) db
  = (Returned
       (Page.mk (firstn (Z.to_nat size)
                        (skipn (Z.to_nat ((page - 1) * size)) (rows db)))
                (Pagination.mk (Z.of_nat (List.length (rows db))) size page)),
     db).
Proof.
  intros Hsize Hskip.
  unfold BaseService.page, bind, Repository.findAndCount, ret. simpl.
  destruct (Z.ltb_spec size 0) as [Hlt | _]; [lia |].
  destruct (Z.ltb_spec ((page - 1) * size) 0) as [Hlt | _]; [lia |].
  reflexivity.
Qed.

Lemma info_is_find (filter : T) (db : Table T) :
  BaseService.info filter db
  = (Returned (List.find (satisfies filter) (rows db)), db).
Proof. reflexivity. Qed.

End Generic.

(** C3. On every table, [page({page: 2, size: 10})] returns the ten rows
    after the first ten (fewer when the table ends before), so at most 10
    records, with the count of all rows of the table as [total] and with
    [size] 10 and [page] 2.  For every page and size from 1 on the slice
    skips (page - 1) * size rows and takes at most size, and size and
    page come back as given; an absent page is 1 and an absent size is
    10. *)
Theorem page_returns_slice_and_full_count
  {T : Type} `{Entity T} (db : Table T) :
  (exists list,
     BaseService.page (PageQuery.mk (Some 2) (Some 10)) db
     = (Returned (Page.mk list
                    (Pagination.mk (Z.of_nat (List.length (rows db))) 10 2)),
        db)
     /\ list = firstn 10 (skipn 10 (rows db))
     /\ (List.length list <= 10)%nat)
  /\ (forall page size,
        1 <= page -> 1 <= size ->
        exists list,
          BaseService.page (PageQuery.mk (Some page) (Some size)) db
          = (Returned (Page.mk list
                         (Pagination.mk (Z.of_nat (List.length (rows db)))
                                        size page)),
             db)
          /\ list = firstn (Z.to_nat size)
                           (skipn (Z.to_nat ((page - 1) * size)) (rows db))
          /\ Z.of_nat (List.length list) <= size)
  /\ (forall page,
        BaseService.page (PageQuery.mk page None) db
        = BaseService.page (PageQuery.mk page (Some 10)) db)
  /\ (forall size,
        BaseService.page (PageQuery.mk None size) db
        = BaseService.page (PageQuery.mk (Some 1) size) db).
Proof.
  repeat split.
  - eexists. split; [apply page_in_range; lia |].
    split; [reflexivity | apply firstn_le_length].
  - intros page size Hpage Hsize.
    eexists. split; [apply page_in_range; nia |].
    split; [reflexivity |].
    pose proof (firstn_le_length (Z.to_nat size)
                  (skipn (Z.to_nat ((page - 1) * size)) (rows db))). lia.
Qed.

Lemma page_returns_slice_and_full_count_witness :
  exists list,
    BaseService.page (PageQuery.mk (Some 3) (Some 10)) many_users
    = (Returned (Page.mk list (Pagination.mk 25 10 3)), many_users)
    /\ list = firstn 10 (skipn 20 (rows many_users))
    /\ Z.of_nat (List.length list) <= 10.
Proof.
  exact (proj1 (proj2 (page_returns_slice_and_full_count many_users))
               3 10 ltac:(lia) ltac:(lia)).
Defined.

(** C7. [info(filter)] returns the first row that satisfies the filter
    when some row does, and null when none does. *)
Theorem info_returns_first_match_or_null
  {T : Type} `{Entity T} (filter : T) (db : Table T) :
  ((exists row, In row (rows db) /\ satisfies filter row = true) ->
   exists first,
     first_match (satisfies filter) (rows db) first
     /\ BaseService.info filter db = (Returned (Some first), db))
  /\ ((forall row, In row (rows db) -> satisfies filter row = false) ->
      BaseService.info filter db = (Returned None, db)).
Proof.
  rewrite info_is_find. split.
  - intros (row & Hin & Hrow).
    destruct (List.find (satisfies filter) (rows db)) as [first |] eqn:Hfind.
    + exists first. split; [now apply find_first_match | reflexivity].
    + rewrite find_no_match in Hfind. rewrite (Hfind row Hin) in Hrow.
      discriminate.
  - intros Hnone. apply find_no_match in Hnone. now rewrite Hnone.
Qed.

Lemma info_returns_first_match_or_null_witness :
  (exists first,
     first_match (satisfies (User.by_username (Some "bob"))) (rows two_users) first
     /\ BaseService.info (User.by_username (Some "bob")) two_users
        = (Returned (Some first), two_users))
  /\ BaseService.info (User.by_username (Some "carol")) two_users
     = (Returned None, two_users).
Proof.
  split.
  - apply (proj1 (info_returns_first_match_or_null
                    (User.by_username (Some "bob")) two_users)).
    exists bob. split; [simpl; auto | reflexivity].
  - apply (proj2 (info_returns_first_match_or_null
                    (User.by_username (Some "carol")) two_users)).
    intros row [<- | [<- | []]]; reflexivity.
Defined.

(** ** The response envelope *)


Lemma success_well_formed (data : option Payload) (o : option IResult.t) :
  well_formed (BaseController.success data o).
Proof. unfold BaseController.success, Result.success. now eexists _, _, _. Qed.

Lemma error_well_formed (message : option string) (o : option IResult.t) :
  well_formed (BaseController.error message o).
Proof. unfold BaseController.error, Result.error. now eexists _, _, _. Qed.

Create HintDb envelope.
#[local] Hint Resolve success_well_formed error_well_formed : envelope.

Lemma respond_well_formed {A : Type}
  (m : Async UserService.Db A) (f : A -> option Payload) (db : UserService.Db) :
  well_formed
    (fst (ErrorPath.respond
            (x <- m ;; ret (BaseController.success (f x) None)) db)).
Proof.
  unfold ErrorPath.respond, ErrorPath.translate, bind, ret.
  destruct (m db) as [[a | e] db']; simpl; auto with envelope.
Qed.

(** C5. A response has the three properties code, data and message:
    what [Result.success] and [Result.error] build, and what every handler
    of the user controller answers.  [success] takes 200, null and
    'success' for the code, data and message that are not supplied,
    [error] takes 900, null and 'error'; a supplied code, data or message
    is the one of the result. *)
Theorem envelope_shape_and_defaults :
  (forall o, well_formed (Result.success o) /\ well_formed (Result.error o))
  /\ (forall login captcha path body h db,
        UserController.route login captcha path body = Some h ->
        well_formed (fst (ErrorPath.respond h db)))
  /\ Result.success None = IResult.mk (Value Null) (Value 200) (Value "success")
  /\ Result.success (Some IResult.empty)
     = IResult.mk (Value Null) (Value 200) (Value "success")
  /\ Result.error None = IResult.mk (Value Null) (Value 900) (Value "error")
  /\ Result.error (Some IResult.empty)
     = IResult.mk (Value Null) (Value 900) (Value "error")
  /\ (forall o,
        defaults_to Null (IResult.data o) (IResult.data (Result.success (Some o)))
        /\ defaults_to 200 (IResult.code o) (IResult.code (Result.success (Some o)))
        /\ defaults_to "success" (IResult.message o)
                       (IResult.message (Result.success (Some o))))
  /\ (forall o,
        defaults_to Null (IResult.data o) (IResult.data (Result.error (Some o)))
        /\ defaults_to 900 (IResult.code o) (IResult.code (Result.error (Some o)))
        /\ defaults_to "error" (IResult.message o)
                       (IResult.message (Result.error (Some o))))
  /\ (forall d c m,
        Result.success (Some (IResult.mk (Value d) (Value c) (Value m)))
        = IResult.mk (Value d) (Value c) (Value m)
        /\ Result.error (Some (IResult.mk (Value d) (Value c) (Value m)))
           = IResult.mk (Value d) (Value c) (Value m)).
Proof.
  split; [| split].
  - intros o. split; unfold Result.success, Result.error; now eexists _, _, _.
  - intros login captcha path body h db. unfold UserController.route.
    repeat match goal with
           | |- context [if ?c then _ else _] => destruct c
           end;
      intros [= <-]; apply respond_well_formed.
  - repeat split; try reflexivity;
      destruct o as [[| | d] [| | c] [| | m]]; reflexivity.
Qed.

Lemma envelope_shape_and_defaults_witness :
  well_formed
    (fst (ErrorPath.respond
            (UserController.add
               (User.mk None None None (Some "bob") (Some "p") None None None))
            two_users)).
Proof.
  apply (proj1 (proj2 envelope_shape_and_defaults)
           (fun _ => ret Null) (ret Null) "/user/add"
           (Body.mk (User.mk None None None (Some "bob") (Some "p") None None None)
                    (PageQuery.mk None None))).
  reflexivity.
Defined.

(** C6. A failure reaches the client as the error envelope: the code is
    the fixed 900, the data are null and the message is the message of
    the failure, whatever the failure; an answer that is not a failure
    is passed on as it is.  This is what the [error] method of the base
    controller builds from a message alone. *)
Theorem failure_surfaces_with_fixed_code
  (h : UserController.Handler) (db : UserService.Db) :
  match h db with
  | (Thrown e, db') =>
      ErrorPath.respond h db
      = (IResult.mk (Value Null) (Value DEFAULT_ERROR_CODE)
                    (Value (error_message e)), db')
  | (Returned r, db') => ErrorPath.respond h db = (r, db')
  end
  /\ DEFAULT_ERROR_CODE = 900
  /\ (forall e,
        ErrorPath.translate e
        = IResult.mk (Value Null) (Value 900) (Value (error_message e)))
  /\ (forall message,
        BaseController.error (Some message) None
        = IResult.mk (Value Null) (Value 900) (Value message)).
Proof.
  unfold ErrorPath.respond.
  destruct (h db) as [[r | e] db']; repeat split.
Qed.

(** C8. The handler of [/user/list] does not look at the body: whatever
    the body, the route is the one handler, which calls the [list] of the
    service with no argument, and the data of the response are all the
    rows of the table. *)
Theorem list_ignores_body
  (login : User.t -> Async UserService.Db Payload)
  (captcha : Async UserService.Db Payload)
  (body : Body.t) (db : UserService.Db) :
  UserController.route login captcha "/user/list" body = Some UserController.list
  /\ UserController.list
     = (list <- UserService.list None ;;
        ret (BaseController.success (Some (Rows list)) None))
  /\ UserService.list None db = (Returned (rows db), db)
  /\ ErrorPath.respond UserController.list db
     = (IResult.mk (Value (Rows (rows db))) (Value 200) (Value "success"), db).
Proof. repeat split. Qed.

(** C10. When the [update] of the service returns, the response of
    [/user/update] is the success envelope with null data:
    [{code: 200, data: null, message: 'success'}]; what the service
    returned is dropped. *)
Theorem update_answers_null_data
  (login : User.t -> Async UserService.Db Payload)
  (captcha : Async UserService.Db Payload)
  (body : Body.t) (db db' : UserService.Db) (affected : Z) :
  UserService.update (Body.entity body) db = (Returned affected, db') ->
  UserController.route login captcha "/user/update" body
  = Some (UserController.update (Body.entity body))
  /\ ErrorPath.respond (UserController.update (Body.entity body)) db
     = (IResult.mk (Value Null) (Value 200) (Value "success"), db').
Proof.
  intros Hupdate. split; [reflexivity |].
  unfold ErrorPath.respond, UserController.update, bind. now rewrite Hupdate.
Qed.

Lemma update_answers_null_data_witness :
  exists db',
    ErrorPath.respond
      (UserController.update
         (User.mk (Some 2) None None None None None (Some "Bobby") None))
      two_users
    = (IResult.mk (Value Null) (Value 200) (Value "success"), db')
    /\ map User.nickname (rows db') = [None; Some "Bobby"].
Proof.
  eexists. split.
  - apply (update_answers_null_data
             (fun _ => ret Null) (ret Null)
             (Body.mk (User.mk (Some 2) None None None None None (Some "Bobby") None)
                      (PageQuery.mk None None))
             two_users _ 1).
    reflexivity.
  - reflexivity.
Defined.

(** ** Logging in *)




(** * Further properties of the code *)

(** ** The envelope and the base controller *)

(** X1. In [success(data, option)] and [error(message, option)] the
    properties of [option] come after the argument in the object literal
    and replace it: a [data] of [option] is the data of the result in
    place of the argument, and when [option] owns [data] with the value
    undefined the result has null data, whatever the argument; the same
    for [message] in [error].  A code in [option] replaces 200 and 900. *)
Theorem option_properties_replace_argument
  (data : option Payload) (message : option string) (o : IResult.t) :
  IResult.data (BaseController.success data (Some o))
  = Value match IResult.data o with
          | Absent => match data with Some d => d | None => Null end
          | Undefined => Null
          | Value d => d
          end
  /\ IResult.message (BaseController.error message (Some o))
     = Value match IResult.message o with
             | Absent => match message with Some m => m | None => "error" end
             | Undefined => "error"
             | Value m => m
             end
  /\ IResult.code (BaseController.success data (Some o))
     = Value (or_default 200 (IResult.code o))
  /\ IResult.code (BaseController.error message (Some o))
     = Value (or_default 900 (IResult.code o)).
Proof.
  destruct o as [[| | d] [| | c] [| | m]], data as [d0 |], message as [m0 |];
    repeat split.
Qed.

(** X2. An envelope that [Result.success] or [Result.error] built goes
    through either of them unchanged: all three properties are supplied,
    so no default applies, and an error envelope handed to [success] keeps
    its error code. *)
Theorem built_envelope_is_kept (o : option IResult.t) :
  Result.success (Some (Result.success o)) = Result.success o
  /\ Result.error (Some (Result.error o)) = Result.error o
  /\ Result.success (Some (Result.error o)) = Result.error o
  /\ Result.error (Some (Result.success o)) = Result.success o.
Proof.
  destruct o as [[[| | d] [| | c] [| | m]] |]; repeat split.
Qed.

(** ** The routes *)
Lemma bind_ret_returned {St A B : Type}
  (m : Async St A) (f : A -> B) (s s' : St) (b : B) :
  (x <- m ;; ret (f x)) s = (Returned b, s') ->
  exists a, m s = (Returned a, s') /\ b = f a.
Proof.
  unfold bind, ret. destruct (m s) as [[a | e] s1]; [| discriminate].
  intros [= <- <-]. now exists a.
Qed.

(** X3. Whatever the route and the body, a handler of the user controller
    that returns answers code 200 and message 'success': no handler
    passes an option to [success]. *)
Theorem returned_handler_answers_success
  (login : User.t -> Async UserService.Db Payload)
  (captcha : Async UserService.Db Payload)
  (path : string) (body : Body.t) (h : UserController.Handler)
  (db db' : UserService.Db) (r : IResult.t) :
  UserController.route login captcha path body = Some h ->
  h db = (Returned r, db') ->
  IResult.code r = Value 200 /\ IResult.message r = Value "success".
Proof.
  unfold UserController.route.
  repeat match goal with
         | |- context [if ?c then _ else _] => destruct c
         end;
    intros [= <-] Hrun;
    apply bind_ret_returned in Hrun; destruct Hrun as (a & _ & ->);
    split; reflexivity.
Qed.

Lemma returned_handler_answers_success_witness :
  exists r db',
    UserController.page (PageQuery.mk None None) two_users = (Returned r, db')
    /\ IResult.code r = Value 200 /\ IResult.message r = Value "success".
Proof.
  eexists _, _. split; [reflexivity |].
  apply (returned_handler_answers_success
           (fun _ => ret Null) (ret Null) "/user/page"
           (Body.mk User.empty (PageQuery.mk None None))
           (UserController.page (PageQuery.mk None None))
           two_users two_users);
    reflexivity.
Defined.

(** ** Failures *)



(** ** Adding users *)
Lemma NoDup_snoc {A : Type} (l : list A) (x : A) :
  NoDup l -> ~ In x l -> NoDup (l ++ [x]).
Proof.
  induction 1 as [| y l Hy Hl IH]; simpl; intros Hx.
  - constructor; [intros [] | constructor].
  - constructor.
    + rewrite in_app_iff. simpl. intros [Hin | [-> | []]]; [auto | apply Hx; now left].
    + apply IH. intros Hin. apply Hx. now right.
Qed.

Lemma NoDup_replaced {A : Type} (before after : list A) (x y : A) :
  NoDup (before ++ x :: after) ->
  ~ In y (before ++ x :: after) ->
  NoDup (before ++ y :: after).
Proof.
  intros Hdistinct Hy.
  apply NoDup_remove in Hdistinct. destruct Hdistinct as [Hrest _].
  apply NoDup_Add with (a := y) (l := (before ++ after)%list).
  - apply Add_app.
  - split; [exact Hrest |].
    intros Hin. apply Hy. apply in_app_iff in Hin. apply in_app_iff.
    destruct Hin as [Hin | Hin]; [now left | right; now right].
Qed.

(** X6. [add] keeps the usernames of the table distinct: when no two rows
    share a username before the call, none do after it, whether the call
    inserts or throws. *)
Theorem add_keeps_usernames_distinct (data : User.t) (db : UserService.Db) :
  NoDup (map User.username (rows db)) ->
  NoDup (map User.username (rows (snd (UserService.add data db)))).
Proof.
  intros Hdistinct. destruct (User.username data) as [name |] eqn:Hname.
  - destruct (name_taken_or_free name db) as [Htaken | Hfree].
    + now rewrite (add_taken data name db Hname Htaken).
    + assert (Hfresh : ~ In (Some name) (map User.username (rows db))).
      { intros Hin. apply in_map_iff in Hin. destruct Hin as (u & Hu & Hin).
        now apply (Hfree u Hin). }
      rewrite add_runs, Hname, (find_free name db Hfree).
      unfold Repository.save. change (key (prepared data)) with (User.id data).
      destruct (User.id data) as [i |] eqn:Hid.
      * destruct (existsb (Repository.has_key i) (rows db)) eqn:Hstored.
        -- destruct (replace_first_split (Repository.has_key i)
                       (assign (clock db) (prepared data)) (rows db) Hstored)
             as (before & old & after & Hrows & _ & _ & Hreplaced).
           rewrite Hreplaced. simpl. rewrite Hrows in Hdistinct, Hfresh.
           rewrite map_app in *. simpl in *. rewrite Hname. simpl.
           now apply NoDup_replaced with (x := User.username old).
        -- destruct (insertable (prepared data)); [| exact Hdistinct].
           simpl. rewrite map_app. simpl. rewrite Hname.
           now apply NoDup_snoc.
      * destruct (insertable (prepared data)); [| exact Hdistinct].
        simpl. rewrite map_app. simpl. rewrite Hname.
        now apply NoDup_snoc.
  - rewrite add_runs, Hname.
    destruct (rows db) as [| u l] eqn:Hrows; simpl.
    + unfold Repository.save. rewrite Hrows.
      replace (match key (prepared data) with
               | Some i => existsb (Repository.has_key i) []
               | None => false
               end) with false by (now destruct (key (prepared data))).
      unfold prepared. simpl. rewrite Hname. simpl. rewrite Hrows. constructor.
    + now rewrite Hrows.
Qed.

Lemma add_keeps_usernames_distinct_witness :
  NoDup (map User.username
           (rows (snd (UserService.add
                         (User.mk None None None (Some "carol") (Some "p")
                                  None None None)
                         two_users)))).
Proof.
  apply (add_keeps_usernames_distinct
           (User.mk None None None (Some "carol") (Some "p") None None None)
           two_users).
  simpl. constructor; [| constructor; [| constructor]]; simpl.
  - intros [H | []]. discriminate.
  - intros [].
Defined.

(** X7. A user that [add] inserted is the one [info] finds by the
    username: insert, then look up.  The data carry a password, and no
    identifier or one that no stored user has. *)
Theorem added_user_is_found_by_username
  (data : User.t) (name plain : string) (db : UserService.Db) :
  User.username data = Some name ->
  free_name name db ->
  User.password data = Some plain ->
  new_id data db ->
  exists row db',
    UserService.add data db = (Returned row, db')
    /\ UserService.info (User.by_username (Some name)) db'
       = (Returned (Some row), db').
Proof.
  intros Hname Hfree Hplain Hnew.
  rewrite (add_new_row data name plain db Hname Hfree Hplain Hnew).
  eexists _, _. split; [reflexivity |].
  unfold UserService.info. rewrite info_is_find. cbn [rows].
  erewrite first_match_find; [reflexivity |].
  exists (rows db), []. split; [reflexivity |]. split.
  - apply Forall_forall. intros u Hin.
    apply not_satisfies_by_username. now apply Hfree.
  - now apply satisfies_by_username.
Qed.

Lemma added_user_is_found_by_username_witness :
  exists row db',
    UserService.add
      (User.mk None None None (Some "carol") (Some "p") None None None)
      two_users = (Returned row, db')
    /\ UserService.info (User.by_username (Some "carol")) db'
       = (Returned (Some row), db').
Proof.
  apply (added_user_is_found_by_username
           (User.mk None None None (Some "carol") (Some "p") None None None)
           "carol" "p" two_users eq_refl).
  - intros u [<- | [<- | []]]; discriminate.
  - reflexivity.
  - exact I.
Defined.

Lemma add_stores_name (data : User.t) (name : string)
  (db db' : UserService.Db) (row : User.t) :
  User.username data = Some name ->
  UserService.add data db = (Returned row, db') ->
  taken_name name db'.
Proof.
  intros Hname. rewrite add_runs.
  destruct (List.find _ (rows db)); [discriminate |].
  unfold Repository.save. change (key (prepared data)) with (User.id data).
  destruct (User.id data) as [i |] eqn:Hid.
  - destruct (existsb (Repository.has_key i) (rows db)) eqn:Hstored.
    + destruct (replace_first_split (Repository.has_key i)
                  (assign (clock db) (prepared data)) (rows db) Hstored)
        as (before & old & after & _ & _ & _ & Hreplaced).
      rewrite Hreplaced. intros [= _ <-]. eexists.
      split; [apply in_app_iff; right; left; reflexivity |].
      simpl. now rewrite Hname.
    + destruct (insertable (prepared data)); [| discriminate].
      intros [= _ <-]. eexists.
      split; [apply in_app_iff; right; left; reflexivity | exact Hname].
  - destruct (insertable (prepared data)); [| discriminate].
    intros [= _ <-]. eexists.
    split; [apply in_app_iff; right; left; reflexivity | exact Hname].
Qed.

(** X8. Once [add] has returned for data under a username, a second
    [add] under the same username is refused with the duplicate-user
    error, whatever the other fields of the second request, and leaves the
    table as the first call left it. *)
Theorem second_add_is_refused
  (data again row : User.t) (name : string) (db db' : UserService.Db) :
  User.username data = Some name ->
  User.username again = Some name ->
  UserService.add data db = (Returned row, db') ->
  UserService.add again db' = (Thrown (CustomHttpError "用户已存在"), db').
Proof.
  intros Hname Hagain Hadd.
  apply (add_taken again name db' Hagain).
  exact (add_stores_name data name db db' row Hname Hadd).
Qed.

Lemma second_add_is_refused_witness :
  exists row db',
    UserService.add
      (User.mk None None None (Some "carol") (Some "p") None None None)
      two_users = (Returned row, db')
    /\ UserService.add
         (User.mk None None None (Some "carol") (Some "q") (Some "Carol") None None)
         db' = (Thrown (CustomHttpError "用户已存在"), db').
Proof.
  destruct (UserService.add
              (User.mk None None None (Some "carol") (Some "p") None None None)
              two_users) as [[row | e] db'] eqn:Hrun;
    [| vm_compute in Hrun; discriminate].
  exists row, db'. split; [reflexivity |].
  exact (second_add_is_refused
           (User.mk None None None (Some "carol") (Some "p") None None None)
           (User.mk None None None (Some "carol") (Some "q") (Some "Carol") None None)
           row "carol" two_users db' eq_refl eq_refl Hrun).
Defined.

(** ** Updating users *)
(** X9. [update] keeps the rows in place: the table has the same rows in
    the same order with the same identifiers after the call, the next
    generated identifier is the same, and a row whose identifier is not
    the one of the data is not touched. *)
Theorem update_keeps_rows_in_place (data : User.t) (db : UserService.Db) :
  let db' := snd (UserService.update data db) in
  Forall2 (fun old new =>
             User.id new = User.id old
             /\ (User.id old <> User.id data -> new = old))
          (rows db) (rows db')
  /\ next_id db' = next_id db.
Proof.
  destruct (User.id data) as [i |] eqn:Hid.
  - rewrite (update_with_id data i db Hid). simpl. split; [| reflexivity].
    induction (rows db) as [| row l IH]; simpl; constructor; [| exact IH].
    destruct (Repository.has_key i row) eqn:Hkey.
    + apply has_key_id in Hkey. simpl. split; [now rewrite Hkey | congruence].
    + split; reflexivity.
  - destruct (update_without_id data db Hid) as [e ->]. simpl.
    split; [| reflexivity].
    induction (rows db); constructor; auto.
Qed.

(** X10. Updating under an identifier that no row has is no failure: the
    service returns with zero rows affected and the table as it was, and
    the handler answers the success envelope with null data. *)
Theorem update_of_unknown_id_succeeds
  (data : User.t) (i : Z) (db : UserService.Db) :
  User.id data = Some i ->
  (forall row, In row (rows db) -> User.id row <> Some i) ->
  UserService.update data db = (Returned 0, db)
  /\ UserController.update data db
     = (Returned (IResult.mk (Value Null) (Value 200) (Value "success")), db).
Proof.
  intros Hid Hunknown.
  assert (Hrun : UserService.update data db = (Returned 0, db)).
  { rewrite (update_with_id data i db Hid).
    assert (Hrows : forall l : list User.t,
               (forall row, In row l -> User.id row <> Some i) ->
               List.filter (Repository.has_key i) l = []
               /\ map (fun row =>
                         if Repository.has_key i row
                         then User.mk (Some i)
                                (overwrite (User.createTime data) (User.createTime row))
                                (overwrite (User.updateTime data) (Some (clock db)))
                                (overwrite (User.username data) (User.username row))
                                (overwrite (hashed (User.password data)) (User.password row))
                                (overwrite (User.realname data) (User.realname row))
                                (overwrite (User.nickname data) (User.nickname row))
                                (overwrite (User.roleId data) (User.roleId row))
                         else row) l = l).
    { induction l as [| row l IH]; intros Hl; [split; reflexivity |].
      simpl. destruct (IH (fun r Hr => Hl r (or_intror Hr))) as [-> ->].
      rewrite (proj2 (has_key_other i row) (Hl row (or_introl eq_refl))).
      split; reflexivity. }
    destruct (Hrows (rows db) Hunknown) as [-> ->].
    destruct db; reflexivity. }
  split; [exact Hrun |].
  unfold UserController.update, bind. now rewrite Hrun.
Qed.

Lemma update_of_unknown_id_succeeds_witness :
  UserController.update
    (User.mk (Some 7) None None None None None (Some "nobody") None) two_users
  = (Returned (IResult.mk (Value Null) (Value 200) (Value "success")), two_users).
Proof.
  apply (update_of_unknown_id_succeeds
           (User.mk (Some 7) None None None None None (Some "nobody") None)
           7 two_users eq_refl).
  intros row [<- | [<- | []]]; discriminate.
Defined.

(** X11. [update] does not look at the usernames of the table: giving a
    row the username of another row succeeds, and the table then holds two
    rows with different identifiers under the one username. *)
Theorem update_can_duplicate_username
  (data other target : User.t) (i : Z) (name : string) (db : UserService.Db) :
  User.id data = Some i ->
  User.username data = Some name ->
  In other (rows db) -> User.username other = Some name ->
  User.id other <> Some i ->
  In target (rows db) -> User.id target = Some i ->
  exists affected db' renamed,
    UserService.update data db = (Returned affected, db')
    /\ In other (rows db')
    /\ In renamed (rows db')
    /\ User.id renamed = Some i
    /\ User.username renamed = Some name.
Proof.
  intros Hid Hname Hother Hothername Hotherid Htarget Htargetid.
  rewrite (update_with_id data i db Hid).
  eexists _, _, _. split; [reflexivity |]. simpl.
  split; [| split].
  - apply in_map_iff. exists other.
    rewrite (proj2 (has_key_other i other) Hotherid). now split.
  - apply in_map_iff. exists target.
    rewrite (proj2 (has_key_id i target) Htargetid). split; [reflexivity | exact Htarget].
  - simpl. rewrite Hname. split; reflexivity.
Qed.

Lemma update_can_duplicate_username_witness :
  exists affected db' renamed,
    UserService.update
      (User.mk (Some 2) None None (Some "alice") None None None None) two_users
    = (Returned affected, db')
    /\ In alice (rows db')
    /\ In renamed (rows db')
    /\ User.id renamed = Some 2
    /\ User.username renamed = Some "alice".
Proof.
  apply (update_can_duplicate_username
           (User.mk (Some 2) None None (Some "alice") None None None None)
           alice bob 2 "alice" two_users eq_refl eq_refl).
  - simpl. auto.
  - reflexivity.
  - discriminate.
  - simpl. auto.
  - reflexivity.
Defined.

Lemma md5_not_empty (message : string) : (md5 message =? "")%string = false.
Proof.
  apply String.eqb_neq. intros Hempty.
  pose proof (md5_length message) as Hlen. rewrite Hempty in Hlen. discriminate.
Qed.

Lemma new_or_stored (data : User.t) (db : UserService.Db) :
  new_id data db
  \/ exists i, User.id data = Some i
               /\ exists u, In u (rows db) /\ User.id u = Some i.
Proof.
  unfold new_id. destruct (User.id data) as [i |]; [| now left].
  destruct (existsb (Repository.has_key i) (rows db)) eqn:Hstored.
  - right. exists i. split; [reflexivity |].
    apply existsb_exists in Hstored. destruct Hstored as (u & Hin & Hkey).
    exists u. split; [exact Hin | now apply has_key_id].
  - left. now apply no_row_has_key.
Qed.

(** X12. A stored password is hashed again when the row comes back
    through [update]: the row that [add] returned for a non-empty
    password, submitted to [update] as it is, is stored with the digest of
    the digest. *)
Theorem resubmitted_row_is_hashed_again
  (data : User.t) (name plain : string) (db : UserService.Db) :
  User.username data = Some name ->
  User.password data = Some plain ->
  plain <> "" ->
  free_name name db ->
  exists row db1 affected db2 stored,
    UserService.add data db = (Returned row, db1)
    /\ User.password row = Some (md5 plain)
    /\ UserService.update row db1 = (Returned affected, db2)
    /\ In stored (rows db2)
    /\ User.id stored = User.id row
    /\ User.password stored = Some (md5 (md5 plain)).
Proof.
  intros Hname Hplain Hne Hfree.
  pose proof (hashed_plain plain Hne) as Hhashed.
  pose proof (md5_not_empty plain) as Hdigest.
  destruct (new_or_stored data db) as [Hnew | (i & Hid & Hstored)].
  - rewrite (add_new_row data name plain db Hname Hfree Hplain Hnew). cbv zeta.
    rewrite Hhashed.
    eexists _, _, _, _, _. split; [reflexivity |]. split; [reflexivity |].
    split; [apply update_with_id; reflexivity |]. simpl.
    split; [| split].
    + apply in_map_iff. eexists. split; [reflexivity |].
      apply in_app_iff. right. left. reflexivity.
    + unfold Repository.has_key. simpl. now rewrite Z.eqb_refl.
    + unfold Repository.has_key. simpl. rewrite Z.eqb_refl. simpl.
      now rewrite Hdigest.
  - destruct (add_over_stored data name i db Hname Hfree Hid Hstored)
      as (before & old & after & _ & _ & _ & ->).
    assert (Hrow : User.id (assign (clock db) (prepared data) (prepared data))
                   = Some i) by (simpl; now rewrite Hid).
    eexists _, _, _, _, _. split; [reflexivity |].
    split; [simpl; now rewrite Hplain, Hhashed |].
    split; [apply (update_with_id _ i _ Hrow) |]. cbn [rows].
    split; [| split].
    + apply in_map_iff. eexists. split; [reflexivity |].
      apply in_app_iff. right. left. reflexivity.
    + unfold Repository.has_key. simpl. rewrite Hid. simpl.
      rewrite Z.eqb_refl. reflexivity.
    + unfold Repository.has_key. simpl. rewrite Hid. simpl.
      rewrite Z.eqb_refl. simpl. rewrite Hplain, Hhashed. simpl.
      now rewrite Hdigest.
Qed.

Lemma resubmitted_row_is_hashed_again_witness :
  exists row db1 affected db2 stored,
    UserService.add
      (User.mk None None None (Some "carol") (Some "p") None None None)
      two_users = (Returned row, db1)
    /\ User.password row = Some (md5 "p")
    /\ UserService.update row db1 = (Returned affected, db2)
    /\ In stored (rows db2)
    /\ User.id stored = User.id row
    /\ User.password stored = Some (md5 (md5 "p")).
Proof.
  apply (resubmitted_row_is_hashed_again
           (User.mk None None None (Some "carol") (Some "p") None None None)
           "carol" "p" two_users eq_refl eq_refl).
  - discriminate.
  - intros u [<- | [<- | []]]; discriminate.
Defined.

(** X13. [update] of data whose password is absent leaves every stored
    password as it is; [update] of data whose password is the empty string
    skips the hashing and writes the empty string over the password of the
    rows with the identifier of the data. *)
Theorem update_without_password
  (data : User.t) (i : Z) (db : UserService.Db) :
  User.id data = Some i ->
  let db' := snd (UserService.update data db) in
  (User.password data = None ->
   map User.password (rows db') = map User.password (rows db))
  /\ (User.password data = Some "" ->
      Forall2 (fun old new =>
                 User.password new
                 = if Repository.has_key i old then Some "" else User.password old)
              (rows db) (rows db')).
Proof.
  intros Hid. rewrite (update_with_id data i db Hid). simpl. split; intros Hpw.
  - rewrite map_map. apply map_ext. intros row.
    destruct (Repository.has_key i row); [| reflexivity].
    simpl. now rewrite Hpw.
  - induction (rows db) as [| row l IH]; simpl; constructor; [| exact IH].
    destruct (Repository.has_key i row); [| reflexivity].
    simpl. now rewrite Hpw.
Qed.

Lemma update_without_password_witness :
  map User.password
      (rows (snd (UserService.update
                    (User.mk (Some 2) None None None None None (Some "Bobby") None)
                    two_users)))
  = map User.password (rows two_users)
  /\ map User.password
         (rows (snd (UserService.update
                       (User.mk (Some 2) None None None (Some "") None None None)
                       two_users)))
     = [User.password alice; Some ""].
Proof.
  split.
  - apply (update_without_password
             (User.mk (Some 2) None None None None None (Some "Bobby") None)
             2 two_users eq_refl).
    reflexivity.
  - reflexivity.
Defined.

(** ** Pages *)
Lemma firstn_plus {A : Type} (a b : nat) (l : list A) :
  firstn (a + b) l = (firstn a l ++ firstn b (skipn a l))%list.
Proof.
  revert l. induction a as [| a IH]; intros l; [reflexivity |].
  destruct l as [| x l]; simpl.
  - now rewrite firstn_nil.
  - now rewrite IH.
Qed.

Section Pages.

Context {T : Type} `{Entity T}.

Lemma page_list_in_range (page size : Z) (db : Table T) :
  1 <= page -> 1 <= size ->
  page_list page size db
  = firstn (Z.to_nat size) (skipn (Z.to_nat ((page - 1) * size)) (rows db)).
Proof.
  intros Hpage Hsize. unfold page_list.
  rewrite page_in_range by nia. reflexivity.
Qed.

Lemma pages_up_to (size : Z) (k : nat) (db : Table T) :
  1 <= size ->
  List.concat (map (fun p => page_list (Z.of_nat p) size db) (seq 1 k))
  = firstn (k * Z.to_nat size) (rows db).
Proof.
  intros Hsize. induction k as [| k IH]; [reflexivity |].
  rewrite seq_S, map_app, concat_app, IH. cbn [map List.concat].
  rewrite app_nil_r, page_list_in_range by lia.
  replace (Z.to_nat ((Z.of_nat (1 + k) - 1) * size)) with (k * Z.to_nat size)%nat
    by nia.
  replace (S k * Z.to_nat size)%nat with (k * Z.to_nat size + Z.to_nat size)%nat
    by lia.
  now rewrite firstn_plus.
Qed.

End Pages.

(** X14. The pages of one size follow each other without gap or overlap:
    pages 1 to k, one after the other, are the first k * size rows of the
    table, and all of the table once k * size reaches its length. *)
Theorem pages_tile_the_table
  {T : Type} `{Entity T} (size : Z) (k : nat) (db : Table T) :
  1 <= size ->
  List.concat (map (fun p => page_list (Z.of_nat p) size db) (seq 1 k))
  = firstn (k * Z.to_nat size) (rows db)
  /\ ((List.length (rows db) <= k * Z.to_nat size)%nat ->
      List.concat (map (fun p => page_list (Z.of_nat p) size db) (seq 1 k))
      = rows db).
Proof.
  intros Hsize. split.
  - now apply pages_up_to.
  - intros Hall. rewrite pages_up_to by exact Hsize. now apply firstn_all2.
Qed.

Lemma pages_tile_the_table_witness :
  List.concat (map (fun p => page_list (Z.of_nat p) 10 many_users) (seq 1 3))
  = rows many_users.
Proof.
  apply (pages_tile_the_table 10 3 many_users); simpl; lia.
Defined.

(** X15. A page that starts at or after the end of the table is an empty
    list, not a failure, and its total is still the count of all rows. *)
Theorem page_past_the_end_is_empty
  {T : Type} `{Entity T} (page size : Z) (db : Table T) :
  1 <= page -> 1 <= size ->
  Z.of_nat (List.length (rows db)) <= (page - 1) * size ->
  BaseService.page (PageQuery.mk (Some page) (Some size)) db
  = (Returned (Page.mk []
                 (Pagination.mk (Z.of_nat (List.length (rows db))) size page)),
     db).
Proof.
  intros Hpage Hsize Hpast. rewrite page_in_range by nia.
  rewrite skipn_all2 by lia. now rewrite firstn_nil.
Qed.

Lemma page_past_the_end_is_empty_witness :
  BaseService.page (PageQuery.mk (Some 4) (Some 10)) many_users
  = (Returned (Page.mk [] (Pagination.mk 25 10 4)), many_users).
Proof.
  apply (page_past_the_end_is_empty 4 10 many_users); simpl; lia.
Defined.

(** ** Filters *)
Lemma find_is_head_of_filter {A : Type} (f : A -> bool) (l : list A) :
  List.find f l = hd_error (List.filter f l).
Proof.
  induction l as [| x l IH]; simpl; [reflexivity |].
  now destruct (f x).
Qed.

(** X16. [info] and [list] agree on a filter: [list(filter)] is the rows
    that satisfy it, in table order, and [info(filter)] is the first of
    them, null exactly when [list(filter)] is empty. *)
Theorem info_is_head_of_list
  {T : Type} `{Entity T} (filter : T) (db : Table T) :
  exists matches,
    BaseService.list (Some filter) db = (Returned matches, db)
    /\ matches = List.filter (satisfies filter) (rows db)
    /\ BaseService.info filter db = (Returned (hd_error matches), db)
    /\ (BaseService.info filter db = (Returned None, db) <-> matches = []).
Proof.
  eexists. split; [reflexivity |]. split; [reflexivity |].
  rewrite info_is_find, find_is_head_of_filter.
  split; [reflexivity |].
  destruct (List.filter _ _); simpl; split; congruence.
Qed.

(** X17. The empty object is no restriction: as a filter it selects every
    user, so [list({})] is the whole table, like [list()], and [info({})]
    is the first row of the table. *)
Theorem empty_filter_selects_all (db : UserService.Db) :
  UserService.list (Some User.empty) db = UserService.list None db
  /\ UserService.list (Some User.empty) db = (Returned (rows db), db)
  /\ UserService.info User.empty db = (Returned (hd_error (rows db)), db).
Proof.
  assert (Hall : List.filter (satisfies User.empty) (rows db) = rows db).
  { induction (rows db) as [| u l IH]; [reflexivity |].
    cbn [List.filter]. change (satisfies User.empty u) with true.
    now rewrite IH. }
  unfold UserService.list, UserService.info, BaseService.list, Repository.find.
  rewrite info_is_find, find_is_head_of_filter, Hall. repeat split.
Qed.

(** ** Deleting *)
Lemma satisfies_by_id (i : Z) (u : User.t) :
  satisfies (by_id i) u = true <-> User.id u = Some i.
Proof.
  unfold satisfies; simpl. destruct (User.id u) as [j |]; simpl.
  - rewrite !andb_true_r, Z.eqb_eq. split; [now intros -> | now intros [= ->]].
  - split; discriminate.
Qed.

Section Filtering.

Context {A : Type} (f : A -> bool).

Lemma filter_split_length (l : list A) :
  List.length l
  = (List.length (List.filter f l)
     + List.length (List.filter (fun x => negb (f x)) l))%nat.
Proof.
  induction l as [| x l IH]; simpl; [reflexivity |].
  destruct (f x); simpl; lia.
Qed.

Lemma filter_none (l : list A) :
  (forall x, In x l -> f x = false) ->
  List.filter f l = [] /\ List.filter (fun x => negb (f x)) l = l.
Proof.
  induction l as [| x l IH]; simpl; intros Hl; [split; reflexivity |].
  rewrite (Hl x (or_introl eq_refl)). simpl.
  destruct (IH (fun y Hy => Hl y (or_intror Hy))) as [-> ->].
  split; reflexivity.
Qed.

End Filtering.

Lemma doomed_iff (ids : list Z) (row : User.t) :
  existsb (fun i => Repository.has_key i row) ids = false
  <-> forall i, In i ids -> User.id row <> Some i.
Proof.
  split.
  - intros Hnone i Hin. apply has_key_other.
    destruct (Repository.has_key i row) eqn:Hkey; [| reflexivity].
    rewrite <- Hnone. symmetry. apply existsb_exists. now exists i.
  - intros Hall. destruct (existsb _ ids) eqn:Hsome; [| reflexivity].
    apply existsb_exists in Hsome. destruct Hsome as (i & Hin & Hkey).
    apply has_key_id in Hkey. now destruct (Hall i Hin).
Qed.

(** X19. [delete(ids)], for identifiers that are not an empty list,
    removes the rows whose identifier is among [ids] and no other: the
    rows left are the other rows, the count returned is the number of rows
    removed, [info] by a deleted identifier then returns null, and
    deleting the same identifiers again removes nothing.  An empty list of
    identifiers is refused, with the table as it was. *)
Theorem delete_removes_the_ids (ids : list Z) (db : UserService.Db) :
  (ids <> [] ->
   exists affected db',
     UserService.delete ids db = (Returned affected, db')
     /\ (forall row,
           In row (rows db')
           <-> In row (rows db) /\ forall i, In i ids -> User.id row <> Some i)
     /\ Z.of_nat (List.length (rows db))
        = affected + Z.of_nat (List.length (rows db'))
     /\ (forall i, In i ids ->
           UserService.info (by_id i) db' = (Returned None, db'))
     /\ UserService.delete ids db' = (Returned 0, db'))
  /\ exists e, UserService.delete [] db = (Thrown e, db).
Proof.
  split; [| now eexists].
  intros Hids. destruct ids as [| i0 ids0]; [contradiction |].
  remember (i0 :: ids0) as ids eqn:Hcons.
  assert (Hrun : forall d : UserService.Db,
            UserService.delete ids d
            = (Returned
                 (Z.of_nat
                    (List.length
                       (List.filter
                          (fun r => existsb (fun i => Repository.has_key i r) ids)
                          (rows d)))),
               mkTable
                 (List.filter
                    (fun r => negb (existsb (fun i => Repository.has_key i r) ids))
                    (rows d))
                 (next_id d) (clock d))).
  { intros d. rewrite Hcons. reflexivity. }
  clear Hcons Hids. rewrite Hrun.
  eexists _, _. split; [reflexivity |]. cbn [rows].
  assert (Hleft : forall row,
             In row (List.filter
                       (fun r => negb (existsb (fun i => Repository.has_key i r) ids))
                       (rows db))
             <-> In row (rows db) /\ forall i, In i ids -> User.id row <> Some i).
  { intros row. rewrite filter_In, negb_true_iff, doomed_iff. reflexivity. }
  split; [exact Hleft |]. split; [| split].
  - rewrite (filter_split_length
               (fun r => existsb (fun i => Repository.has_key i r) ids) (rows db)).
    lia.
  - intros i Hin. unfold UserService.info. rewrite info_is_find. cbn [rows].
    replace (List.find _ _) with (@None User.t); [reflexivity |].
    symmetry. apply find_no_match. intros row Hrow.
    apply Hleft in Hrow. destruct Hrow as [_ Hrow].
    apply not_true_is_false. intros Hsat.
    apply satisfies_by_id in Hsat. now destruct (Hrow i Hin).
  - rewrite Hrun. cbn [rows next_id clock].
    destruct (filter_none
                (fun r => existsb (fun i => Repository.has_key i r) ids)
                (List.filter
                   (fun r => negb (existsb (fun i => Repository.has_key i r) ids))
                   (rows db))) as [-> ->]; [| reflexivity].
    intros row Hrow. apply Hleft in Hrow. now apply doomed_iff.
Qed.

Lemma delete_removes_the_ids_witness :
  exists affected db',
    UserService.delete [2; 9] two_users = (Returned affected, db')
    /\ (forall row,
          In row (rows db')
          <-> In row (rows two_users)
              /\ forall i, In i [2; 9] -> User.id row <> Some i)
    /\ Z.of_nat (List.length (rows two_users))
       = affected + Z.of_nat (List.length (rows db'))
    /\ (forall i, In i [2; 9] ->
          UserService.info (by_id i) db' = (Returned None, db'))
    /\ UserService.delete [2; 9] db' = (Returned 0, db').
Proof.
  apply (proj1 (delete_removes_the_ids [2; 9] two_users)). discriminate.
Defined.
